(** * gdpc.http_interface: a shallow embedding and its verified properties

    The module under study is [gdpc/http_interface.py]: the class
    [HTTPInterface], whose methods wrap the endpoints of the GDMC HTTP
    interface, and the helpers [_onRequestRetry], [_get], [_put], [_post].

    Conventions of the embedding.
    - A Python [str] is a Rocq [string] holding the UTF-8 encoding of the
      text, so [bytes(s, "utf-8")] is the list of its bytes and splitting on
      the line feed is splitting on the byte 10 (UTF-8 never uses that byte
      inside a longer sequence).
    - A Python [int] is a [Z]; [None] is the [None] of an [option].
    - A [dict] literal is an association list in insertion order.
    - The [requests] library and the server behind it are the environment:
      a world holds the answers of the network, the list of requests issued,
      what was printed on standard error and the pauses taken.
    - Code that may raise runs in a state-and-error monad over the world. *)

From Stdlib Require Import ZArith List String Ascii Bool Lia PrimFloat.
From Stdlib Require Import DecimalString.
Import ListNotations.

Set Warnings "-register-all".

Local Open Scope string_scope.
Local Open Scope list_scope.
Local Open Scope Z_scope.

(** String concatenation, kept apart from the append of lists. *)
Infix "+++" := String.append (at level 60, right associativity) : string_scope.

(** ** Python values *)

(** The line feed, Python's ["\n"]. *)
Definition LF : ascii := "010"%char.
Definition nl : string := String LF EmptyString.

(** [str.split(sep)] for the one-character separator the module uses. *)
Fixpoint str_split (sep : ascii) (s : string) : list string :=
  match s with
  | EmptyString => [EmptyString]
  | String c rest =>
      if Ascii.eqb c sep then EmptyString :: str_split sep rest
      else match str_split sep rest with
           | [] => [String c EmptyString]
           | piece :: pieces => String c piece :: pieces
           end
  end.

(** [s.count(sep)] for a one-character [sep]. *)
Fixpoint str_count (sep : ascii) (s : string) : nat :=
  match s with
  | EmptyString => O
  | String c rest => if Ascii.eqb c sep then S (str_count sep rest) else str_count sep rest
  end.

(** [bytes(s, "utf-8")]. *)
Definition bytes_utf8 (s : string) : list Byte.byte := list_byte_of_string s.

(** [str(n)] for a natural number. *)
Definition str_of_nat (n : nat) : string := NilZero.string_of_uint (Nat.to_uint n).

(** The scalar values the module puts into query parameters. *)
Inductive pyval : Type :=
| PyInt (n : Z)
| PyBool (b : bool)
| PyStr (s : string).

(** A parameter dict: keys in insertion order, [None] for Python's [None]. *)
Definition dict : Type := list (string * option pyval).

Fixpoint dict_get (d : dict) (k : string) : option (option pyval) :=
  match d with
  | [] => None
  | (k', v) :: rest => if String.eqb k' k then Some v else dict_get rest k
  end.

(** [d[k] = v]: replaces the value of an existing key in place, appends a new key. *)
Fixpoint dict_setitem (d : dict) (k : string) (v : option pyval) : dict :=
  match d with
  | [] => [(k, v)]
  | (k', v') :: rest =>
      if String.eqb k' k then (k', v) :: rest else (k', v') :: dict_setitem rest k v
  end.

(** [d.update(other)]. *)
Definition dict_update (d other : dict) : dict :=
  fold_left (fun acc kv => dict_setitem acc (fst kv) (snd kv)) other d.

(** JSON documents as [json.loads] returns them; a dict is a list of
    distinct keys with their values. *)
Inductive json : Type :=
| JNull
| JBool (b : bool)
| JInt (n : Z)
| JFloat (f : float)
| JStr (s : string)
| JList (items : list json)
| JDict (fields : list (string * json)).

(** Exceptions the module meets. [RequestConnectionError] is
    [requests.exceptions.ConnectionError] (with its subclasses);
    [RequestError] stands for the other exceptions of [requests]. *)
Inductive exn : Type :=
| RequestConnectionError (msg : string)
| RequestError (msg : string)
| JSONDecodeError (msg : string)
| KeyError (key : string)
| TypeError (msg : string).

(** [str(e)]. *)
Definition str_of_exn (e : exn) : string :=
  match e with
  | RequestConnectionError msg | RequestError msg | JSONDecodeError msg | TypeError msg => msg
  | KeyError key => "'" +++ key +++ "'"
  end.

Fixpoint fields_get (fields : list (string * json)) (k : string) : option json :=
  match fields with
  | [] => None
  | (k', v) :: rest => if String.eqb k' k then Some v else fields_get rest k
  end.

(** [j[k]] for a string key [k]. *)
Definition json_getitem (j : json) (k : string) : exn + json :=
  match j with
  | JDict fields =>
      match fields_get fields k with
      | Some v => inr v
      | None => inl (KeyError k)
      end
  | JList _ => inl (TypeError "list indices must be integers or slices, not str")
  | JStr _ => inl (TypeError "string indices must be integers")
  | JNull => inl (TypeError "'NoneType' object is not subscriptable")
  | JBool _ => inl (TypeError "'bool' object is not subscriptable")
  | JInt _ => inl (TypeError "'int' object is not subscriptable")
  | JFloat _ => inl (TypeError "'float' object is not subscriptable")
  end.

(** [j == -1]: numbers compare by value ([-1.0 == -1]); [True] is 1 and
    [False] is 0, so a bool never equals -1; nothing else equals an int. *)
Definition json_eq_minus_one (j : json) : bool :=
  match j with
  | JInt n => n =? -1
  | JFloat f => PrimFloat.eqb f (-1)%float
  | _ => false
  end.

(** ** Requests and responses *)

Inductive verb : Type := GET | PUT | POST.

(** The keyword arguments the module passes to [requests]. *)
Record kwargs : Type := mkKwargs {
  params : dict;
  headers : list (string * string);
  data : option (list Byte.byte);
  timeout : option Z
}.

Record Request : Type := mkRequest {
  method : verb;
  url : string;
  kw : kwargs
}.

(** What [requests] puts into the query string: a parameter whose value is
    [None] is left out. *)
Fixpoint encode_params (d : dict) : list (string * pyval) :=
  match d with
  | [] => []
  | (k, Some v) :: rest => (k, v) :: encode_params rest
  | (_, None) :: rest => encode_params rest
  end.

Definition query (r : Request) : list (string * pyval) := encode_params (params (kw r)).

Fixpoint query_get (q : list (string * pyval)) (k : string) : option pyval :=
  match q with
  | [] => None
  | (k', v) :: rest => if String.eqb k' k then Some v else query_get rest k
  end.

(** A response as the module reads it: [parsed] is the value of
    [response.json()], [None] when the body is not JSON (the call raises). *)
Record Response : Type := mkResponse {
  status_code : Z;
  content : list Byte.byte;
  text : string;
  parsed : option json
}.

(** [response.ok]: no 4xx and no 5xx status. *)
Definition ok (r : Response) : bool :=
  negb ((400 <=? status_code r) && (status_code r <? 600)).

(** ** The state-and-error monad *)

(** A computation over a state [St] either raises or returns, and leaves a
    state behind in both cases. *)
Definition M (St A : Type) : Type := St -> (exn + A) * St.

Definition ret {St A} (a : A) : M St A := fun s => (inr a, s).

Definition raise {St A} (e : exn) : M St A := fun s => (inl e, s).

Definition bind {St A B} (m : M St A) (k : A -> M St B) : M St B :=
  fun s =>
    match m s with
    | (inr a, s1) => k a s1
    | (inl e, s1) => (inl e, s1)
    end.

(** [try: m / except <class>: handler]: [handler e] is [None] when the
    [except] clause does not match [e], which then propagates. *)
Definition try_except {St A} (m : M St A) (handler : exn -> option (M St A)) : M St A :=
  fun s =>
    match m s with
    | (inr a, s1) => (inr a, s1)
    | (inl e, s1) =>
        match handler e with
        | Some h => h s1
        | None => (inl e, s1)
        end
    end.

(** Lifts a value that is either an exception or a result. *)
Definition lift {St A} (r : exn + A) : M St A := fun s => (r, s).

(** A statement that cannot raise. *)
Definition exec {St} (f : St -> St) : M St unit := fun s => (inr tt, f s).

Declare Scope py_scope.
Delimit Scope py_scope with py.
Notation "x <- m ;; k" := (bind m (fun x => k))
  (at level 100, m at next level, right associativity) : py_scope.
Notation "m ;;; k" := (bind m (fun _ => k))
  (at level 100, right associativity) : py_scope.
Local Open Scope py_scope.

(** ** The retrying call wrapper *)

(** The failures the wrapper retries: connection-level ones. *)
Definition is_transient (e : exn) : bool :=
  match e with
  | RequestConnectionError _ => true
  | _ => false
  end.

(** Modelled from the spec: [withRetries] of [gdpc/utility.py], which is not
    among the source files. The spec (section 4.1): execute the operation; if
    it raises a transient connection-level failure, invoke the notification
    callback with the exception and the remaining retry count, then retry;
    after the retry budget is exhausted, propagate the final failure to the
    caller; other failures are not retried and surface immediately; the
    callback has no effect on control flow beyond being invoked. The count
    passed to the callback is the number of retries still to be made, the
    coming one included. *)
Fixpoint withRetries {St A} (function : M St A) (retries : nat)
    (onRetry : exn -> nat -> St -> St) : M St A :=
  fun s =>
    match function s with
    | (inr a, s1) => (inr a, s1)
    | (inl e, s1) =>
        if is_transient e then
          match retries with
          | O => (inl e, s1)
          | S remaining => withRetries function remaining onRetry (onRetry e retries s1)
          end
        else (inl e, s1)
    end.

(** Observation of the wrapper: the state is paired with a journal in which
    every invocation of the operation (with the exception it raised, if any)
    and every invocation of the callback (with its two arguments) is noted. *)
Inductive probe : Type :=
| Invoked (raised : option exn)
| Notified (e : exn) (retriesLeft : nat).

Definition raised_of {A} (r : exn + A) : option exn :=
  match r with
  | inl e => Some e
  | inr _ => None
  end.

Definition probed {St A} (function : M St A) : M (St * list probe) A :=
  fun sj =>
    let r := function (fst sj) in
    (fst r, (snd r, snd sj ++ [Invoked (raised_of (fst r))])).

Definition probed_onRetry {St} (onRetry : exn -> nat -> St -> St)
    (e : exn) (retriesLeft : nat) (sj : St * list probe) : St * list probe :=
  (onRetry e retriesLeft (fst sj), snd sj ++ [Notified e retriesLeft]).

Definition is_invocation (p : probe) : bool :=
  match p with Invoked _ => true | Notified _ _ => false end.

Definition is_notification (p : probe) : bool :=
  match p with Invoked _ => false | Notified _ _ => true end.

Definition invocations (journal : list probe) : nat :=
  List.length (filter is_invocation journal).

Definition notifications (journal : list probe) : nat :=
  List.length (filter is_notification journal).

(** The operation raises a connection failure whenever it is invoked. *)
Definition always_unreachable {St A} (function : M St A) : Prop :=
  forall s : St, exists msg, fst (function s) = inl (RequestConnectionError msg).

(** The journal of a run in which the attempts raised [es] in turn, each
    followed by a notification with the counts [k], [k-1], ... *)
Fixpoint retry_rounds (es : list exn) (k : nat) : list probe :=
  match es with
  | [] => []
  | e :: rest => Invoked (Some e) :: Notified e k :: retry_rounds rest (pred k)
  end.

(** ** The object and the world around it *)

Record HTTPInterface : Type := mkHTTPInterface {
  host : string
}.

(** [HTTPInterface.__init__(self, host="http://localhost:9000")]; the
    argument is [None] when the caller gives no host. *)
Definition HTTPInterface_init (host_arg : option string) : HTTPInterface :=
  mkHTTPInterface
    match host_arg with
    | Some h => h
    | None => "http://localhost:9000"
    end.

(** The world of a call: the object the method is called on, the network
    (the outcome of a request, given the requests issued before it), the
    requests issued so far (oldest first), the lines printed on standard
    error and the pauses taken, in seconds. *)
Record World : Type := mkWorld {
  this : HTTPInterface;
  net : list Request -> Request -> exn + Response;
  sent : list Request;
  stderr : list string;
  slept : list Z
}.

Definition get_this : M World HTTPInterface := fun w => (inr (this w), w).

(** Modelled from the spec: [eprint] of [gdpc/utility.py], which is not among
    the source files; it prints its argument on standard error. *)
Definition eprint (line : string) (w : World) : World :=
  mkWorld (this w) (net w) (sent w) (stderr w ++ [line]) (slept w).

(** [time.sleep(seconds)]. *)
Definition time_sleep (seconds : Z) (w : World) : World :=
  mkWorld (this w) (net w) (sent w) (stderr w) (slept w ++ [seconds]).

(** [termcolor.colored]: the text between the escape sequence of the colour
    and the reset sequence (an unknown colour, which termcolor rejects and
    the module never passes, leaves the text as it is). *)
Definition ESC : string := String "027"%char EmptyString.

Definition colored (color text : string) : string :=
  let wrap code := ESC +++ "[" +++ code +++ "m" +++ text +++ ESC +++ "[0m" in
  if String.eqb color "red" then wrap "31"
  else if String.eqb color "green" then wrap "32"
  else if String.eqb color "yellow" then wrap "33"
  else if String.eqb color "blue" then wrap "34"
  else if String.eqb color "magenta" then wrap "35"
  else if String.eqb color "cyan" then wrap "36"
  else if String.eqb color "white" then wrap "37"
  else text.

(** [requests.request]: the network decides the outcome; the request is
    added to those issued. *)
Definition requests_request (r : Request) : M World Response :=
  fun w => (net w (sent w) r,
            mkWorld (this w) (net w) (sent w ++ [r]) (stderr w) (slept w)).

Definition requests_get (url : string) (kw : kwargs) : M World Response :=
  requests_request (mkRequest GET url kw).

Definition requests_put (url : string) (kw : kwargs) : M World Response :=
  requests_request (mkRequest PUT url kw).

Definition requests_post (url : string) (kw : kwargs) : M World Response :=
  requests_request (mkRequest POST url kw).

(** [response.json()]. *)
Definition response_json (r : Response) : M World json :=
  match parsed r with
  | Some j => ret j
  | None => raise (JSONDecodeError "Expecting value")
  end.

(** ** The module *)

Definition _onRequestRetry (e : exn) (retriesLeft : nat) (w : World) : World :=
  time_sleep 3
    (eprint (colored "yellow"
       ("HTTP request failed! Is Minecraft running? If so, try reducing your render distance."
        +++ nl
        +++ "Error: " +++ str_of_exn e
        +++ "I'll retry in a bit (" +++ str_of_nat retriesLeft +++ " retries left)." +++ nl))
       w).

Definition _get (url : string) (kw : kwargs) (retries : nat) : M World Response :=
  withRetries (requests_get url kw) retries _onRequestRetry.

Definition _put (url : string) (kw : kwargs) (retries : nat) : M World Response :=
  withRetries (requests_put url kw) retries _onRequestRetry.

Definition _post (url : string) (kw : kwargs) (retries : nat) : M World Response :=
  withRetries (requests_post url kw) retries _onRequestRetry.

Definition getBlock (x y z : Z) (dx dy dz : option Z) (dimension : option string)
    (includeState includeData : bool) (retries : nat) (timeout : option Z) : M World json :=
  self <- get_this ;;
  let url := host self +++ "/blocks" in
  let parameters : dict :=
    [ ("x", Some (PyInt x));
      ("y", Some (PyInt y));
      ("z", Some (PyInt z));
      ("dx", option_map PyInt dx);
      ("dy", option_map PyInt dy);
      ("dz", option_map PyInt dz);
      ("includeState", if includeState then Some (PyBool true) else None);
      ("includeData", if includeData then Some (PyBool true) else None);
      ("dimension", option_map PyStr dimension) ] in
  response <- _get url (mkKwargs parameters [("accept", "application/json")] None timeout) retries ;;
  blocks <- response_json response ;;
  ret blocks.

Definition placeBlock (x y z : Z) (blockStr : string) (dimension : option string)
    (doBlockUpdates spawnDrops : bool) (customFlags : string)
    (retries : nat) (timeout : option Z) : M World (list string) :=
  self <- get_this ;;
  let url := host self +++ "/blocks" in
  let blockUpdateParams : dict :=
    if negb (String.eqb customFlags "") then
      [ ("customFlags", Some (PyStr customFlags)) ]
    else
      [ ("doBlockUpdates", Some (PyBool doBlockUpdates));
        ("spawnDrops", Some (PyBool spawnDrops)) ] in
  let parameters : dict :=
    [ ("x", Some (PyInt x)); ("y", Some (PyInt y)); ("z", Some (PyInt z)) ] in
  let parameters := dict_update parameters blockUpdateParams in
  response <- _put url (mkKwargs parameters [] (Some (bytes_utf8 blockStr)) timeout) retries ;;
  ret (str_split LF (text response)).

Definition runCommand (command : string) (dimension : option string)
    (retries : nat) (timeout : option Z) : M World (list string) :=
  self <- get_this ;;
  let url := host self +++ "/command" in
  response <- _post url
      (mkKwargs [ ("dimension", option_map PyStr dimension) ] []
         (Some (bytes_utf8 command)) timeout) retries ;;
  ret (str_split LF (text response)).

(** The six bounds as they come out of the JSON document. *)
Definition bounds : Type := json * json * json * json * json * json.

Definition getBuildArea (retries : nat) (timeout : option Z)
    : M World (bool * (bounds + string)) :=
  self <- get_this ;;
  response <- _get (host self +++ "/buildarea") (mkKwargs [] [] None timeout) retries ;;
  failed <-
    (if negb (ok response) then ret true
     else (payload <- response_json response ;; ret (json_eq_minus_one payload))) ;;
  if (failed : bool) then ret (false, inr (text response))
  else
    buildAreaJson <- response_json response ;;
    x1 <- lift (json_getitem buildAreaJson "xFrom") ;;
    y1 <- lift (json_getitem buildAreaJson "yFrom") ;;
    z1 <- lift (json_getitem buildAreaJson "zFrom") ;;
    x2 <- lift (json_getitem buildAreaJson "xTo") ;;
    y2 <- lift (json_getitem buildAreaJson "yTo") ;;
    z2 <- lift (json_getitem buildAreaJson "zTo") ;;
    ret (true, inl (x1, y1, z1, x2, y2, z2)).

Definition getChunks (x z dx dz : Z) (dimension : option string) (asBytes : bool)
    (retries : nat) (timeout : option Z) : M World (list Byte.byte + string) :=
  self <- get_this ;;
  let url := host self +++ "/chunks" in
  let parameters : dict :=
    [ ("x", Some (PyInt x));
      ("z", Some (PyInt z));
      ("dx", Some (PyInt dx));
      ("dz", Some (PyInt dz));
      ("dimension", option_map PyStr dimension) ] in
  let acceptType := if asBytes then "application/octet-stream" else "text/plain" in
  response <- _get url (mkKwargs parameters [("Accept", acceptType)] None timeout) retries ;;
  (if 400 <=? status_code response
   then exec (eprint ("Error: " +++ text response))
   else ret tt) ;;;
  ret (if asBytes then inl (content response) else inr (text response)).

Definition getVersion (retries : nat) (timeout : option Z) : M World string :=
  self <- get_this ;;
  response <- _get (host self +++ "/version") (mkKwargs [] [] None timeout) retries ;;
  ret (text response).

(** [v in SUPPORTED_MINECRAFT_VERSIONS]. *)
Definition str_in (v : string) (versions : list string) : bool :=
  existsb (String.eqb v) versions.

(** [SUPPORTED_MINECRAFT_VERSIONS] comes from [gdpc/lookup.py], which is not
    among the source files: the list is a parameter of the method. The [try]
    statement covers the call of [getVersion] alone: its outcome is [None]
    when the handler was entered, which returns at once. *)
Definition checkConnection (SUPPORTED_MINECRAFT_VERSIONS : list string)
    : M World (bool * option bool) :=
  attempt <-
    try_except
      (minecraftVersion <- getVersion 0 None ;; ret (Some minecraftVersion))
      (fun e =>
         match e with
         | RequestConnectionError _ => Some (ret None)
         | _ => None
         end) ;;
  match attempt with
  | None => ret (false, None)
  | Some minecraftVersion =>
      ret (true, Some (str_in minecraftVersion SUPPORTED_MINECRAFT_VERSIONS))
  end.

(** ** Vocabulary of the properties *)

(** The requests issued between the world [w] and the later world [w']. *)
Definition issued (w w' : World) : list Request :=
  skipn (List.length (sent w)) (sent w').

(** The outcome the network gave to the last request issued between [w] and
    [w']: the server's response, or the exception [requests] raised. *)
Definition last_outcome (w w' : World) : option (exn + Response) :=
  match rev (sent w') with
  | [] => None
  | req :: before =>
      if (List.length (sent w) <? List.length (sent w'))%nat
      then Some (net w (rev before) req)
      else None
  end.

(** Some request was issued, and each one used verb [v] on the address [u]. *)
Definition sends_to (v : verb) (u : string) (w w' : World) : Prop :=
  issued w w' <> [] /\
  Forall (fun r => method r = v /\ url r = u) (issued w w').

(** The parameter mapping of request [r] has the key [k] with the value [v],
    and so has its query string. *)
Definition has_param (r : Request) (k : string) (v : pyval) : Prop :=
  dict_get (params (kw r)) k = Some (Some v) /\ query_get (query r) k = Some v.

(** The parameter mapping of request [r] has no key [k] at all, and neither
    has its query string. *)
Definition lacks_param (r : Request) (k : string) : Prop :=
  dict_get (params (kw r)) k = None /\ query_get (query r) k = None.

(** The query string of [r] carries [k] exactly when the optional argument
    [v] is set, and then with its value. *)
Definition sends_optional (r : Request) (k : string) (v : option pyval) : Prop :=
  query_get (query r) k = v.

(** A world in which the network gives the same outcome to every request,
    nothing has been sent or printed yet, and the object is [self]. *)
Definition answering (outcome : exn + Response) (self : HTTPInterface) : World :=
  mkWorld self (fun _ _ => outcome) [] [] [].

(** A world in which the first [failures] requests meet a refused connection
    and every later one gets [outcome]. *)
Definition flaky (failures : nat) (outcome : exn + Response) (self : HTTPInterface) : World :=
  mkWorld self
    (fun before _ =>
       if (List.length before <? failures)%nat
       then inl (RequestConnectionError "Connection refused")
       else outcome)
    [] [] [].

(** The network of [w] never lets a request through. *)
Definition unreachable (w : World) : Prop :=
  forall (before : list Request) (r : Request),
    exists msg, net w before r = inl (RequestConnectionError msg).

(** A response with the given status and body, the body being text that is
    not JSON unless [document] says what it parses to. *)
Definition plain_response (status : Z) (body : string) (document : option json) : Response :=
  mkResponse status (bytes_utf8 body) body document.

(** An operation that never reaches the server, over a counter of attempts. *)
Definition unreachable_operation : M nat unit :=
  fun attempts => (inl (RequestConnectionError "Connection refused"), S attempts).

(** An operation whose answer cannot be decoded. *)
Definition undecodable_operation : M nat unit :=
  fun attempts => (inl (JSONDecodeError "Expecting value"), S attempts).

(** How a request issued with [N] retries went, [run] being the outcome and
    the world it left: it was sent [k + 1] times for some [k <= N]; each of
    the first [k] attempts met a connection failure; the outcome of the call
    is that of the last attempt, and it is a connection failure only when
    the retries are used up; three seconds were waited after each failed
    attempt but the last. *)
Definition retry_discipline (req : Request) (N : nat) (w : World)
    (run : (exn + Response) * World) : Prop :=
  exists k : nat,
    (k <= N)%nat /\
    sent (snd run) = sent w ++ repeat req (S k) /\
    (forall i : nat, (i < k)%nat ->
       exists msg, net w (sent w ++ repeat req i) req = inl (RequestConnectionError msg)) /\
    fst run = net w (sent w ++ repeat req k) req /\
    (forall msg, fst run = inl (RequestConnectionError msg) -> k = N) /\
    slept (snd run) = slept w ++ repeat 3 k.



(** The request carries these headers and this timeout. *)
Definition carries (hs : list (string * string)) (t : option Z) (r : Request) : Prop :=
  headers (kw r) = hs /\ timeout (kw r) = t.

(** The body of the request is the UTF-8 encoding of [s]: it is there, and
    decoding it gives [s] back. *)
Definition body_is (s : string) (r : Request) : Prop :=
  exists body : list Byte.byte,
    data (kw r) = Some body /\ string_of_list_byte body = s.

(** The call with [retries] retries, [run] being its outcome and the world
    it left, gave up: it raised a connection failure after [retries + 1]
    requests and [retries] pauses of three seconds. *)
Definition gives_up {A : Type} (retries : nat) (w : World) (run : (exn + A) * World) : Prop :=
  exists msg : string,
    fst run = inl (RequestConnectionError msg) /\
    List.length (issued w (snd run)) = S retries /\
    slept (snd run) = slept w ++ repeat 3 retries.

(** A world whose server is down. *)
Definition server_down_world : World :=
  answering (inl (RequestConnectionError "Connection refused")) (HTTPInterface_init None).

(** * Properties *)

(** ** The retrying call wrapper *)

Section Wrapper.

Context {St A : Type}.
Variable function : M St A.
Variable onRetry : exn -> nat -> St -> St.

Lemma withRetries_unfold (retries : nat) (s : St) :
  withRetries function retries onRetry s =
  match function s with
  | (inr a, s1) => (inr a, s1)
  | (inl e, s1) =>
      if is_transient e then
        match retries with
        | O => (inl e, s1)
        | S remaining => withRetries function remaining onRetry (onRetry e retries s1)
        end
      else (inl e, s1)
  end.
Proof. destruct retries; reflexivity. Qed.

Lemma probed_onRetry_pair (e : exn) (k : nat) (s : St) (j : list probe) :
  probed_onRetry onRetry e k (s, j) = (onRetry e k s, j ++ [Notified e k]).
Proof. reflexivity. Qed.

Lemma invocations_app (j1 j2 : list probe) :
  invocations (j1 ++ j2) = (invocations j1 + invocations j2)%nat.
Proof. unfold invocations. rewrite filter_app, length_app. reflexivity. Qed.

Lemma notifications_app (j1 j2 : list probe) :
  notifications (j1 ++ j2) = (notifications j1 + notifications j2)%nat.
Proof. unfold notifications. rewrite filter_app, length_app. reflexivity. Qed.

Lemma invocations_retry_rounds (es : list exn) :
  forall k, invocations (retry_rounds es k) = List.length es.
Proof.
  induction es as [| e es IH]; intro k; [reflexivity |].
  change (S (invocations (retry_rounds es (pred k))) = S (List.length es)).
  now rewrite IH.
Qed.

Lemma notifications_retry_rounds (es : list exn) :
  forall k, notifications (retry_rounds es k) = List.length es.
Proof.
  induction es as [| e es IH]; intro k; [reflexivity |].
  change (S (notifications (retry_rounds es (pred k))) = S (List.length es)).
  now rewrite IH.
Qed.

Lemma exhausts_budget_from (Hfail : always_unreachable function) :
  forall (N : nat) (s : St) (j0 : list probe),
    exists (es : list exn) (e : exn),
      List.length es = N /\
      Forall (fun e' => is_transient e' = true) es /\
      is_transient e = true /\
      fst (withRetries (probed function) N (probed_onRetry onRetry) (s, j0)) = inl e /\
      snd (snd (withRetries (probed function) N (probed_onRetry onRetry) (s, j0)))
        = j0 ++ retry_rounds es N ++ [Invoked (Some e)].
Proof.
  induction N as [| N IH]; intros s j0.
  - destruct (Hfail s) as [msg Hs].
    exists [], (RequestConnectionError msg).
    cbn [withRetries probed fst snd]. rewrite Hs. cbn.
    repeat split; auto.
  - destruct (Hfail s) as [msg Hs].
    cbn [withRetries probed fst snd]. rewrite Hs.
    cbn [is_transient fst snd raised_of].
    rewrite !probed_onRetry_pair.
    destruct (IH (onRetry (RequestConnectionError msg) (S N) (snd (function s)))
                ((j0 ++ [Invoked (Some (RequestConnectionError msg))])
                   ++ [Notified (RequestConnectionError msg) (S N)]))
      as (es & e & Hlen & Hall & He & Hres & Hj).
    exists (RequestConnectionError msg :: es), e.
    repeat split; auto.
    + cbn. now rewrite Hlen.
    + rewrite Hj. cbn [retry_rounds pred]. rewrite <- !app_assoc. reflexivity.
Qed.

(** Observing a run does not change it. *)
Lemma probed_faithful :
  forall (N : nat) (s : St) (j : list probe),
    fst (withRetries (probed function) N (probed_onRetry onRetry) (s, j))
      = fst (withRetries function N onRetry s) /\
    fst (snd (withRetries (probed function) N (probed_onRetry onRetry) (s, j)))
      = snd (withRetries function N onRetry s).
Proof.
  induction N as [| N IH]; intros s j;
    cbn [withRetries probed fst snd];
    destruct (function s) as [[e | a] s1]; cbn [fst snd];
    try (destruct (is_transient e)); cbn [fst snd]; auto.
  rewrite probed_onRetry_pair. apply IH.
Qed.

End Wrapper.

(** C2. When the operation raises a transient connection failure on every
    invocation, a call of the wrapper with [N] retries invokes the operation
    exactly [N + 1] times and the callback exactly [N] times, each time with
    the exception just raised and the retries remaining ([N], [N - 1], ...,
    [1]), and then the failure of the last invocation reaches the caller. *)
Theorem withRetries_exhausts_budget :
  forall (St A : Type) (function : M St A) (onRetry : exn -> nat -> St -> St)
         (N : nat) (s : St),
    always_unreachable function ->
    let run := withRetries (probed function) N (probed_onRetry onRetry) (s, []) in
    invocations (snd (snd run)) = S N /\
    notifications (snd (snd run)) = N /\
    exists (es : list exn) (e : exn),
      List.length es = N /\
      Forall (fun e' => is_transient e' = true) es /\
      snd (snd run) = retry_rounds es N ++ [Invoked (Some e)] /\
      is_transient e = true /\
      fst run = inl e /\
      fst (withRetries function N onRetry s) = inl e.
Proof.
  intros St A function onRetry N s Hfail run.
  destruct (exhausts_budget_from function onRetry Hfail N s [])
    as (es & e & Hlen & Hall & He & Hres & Hj).
  fold run in Hres, Hj. cbn [app] in Hj.
  split; [| split].
  - rewrite Hj, invocations_app, invocations_retry_rounds, Hlen.
    cbn. lia.
  - rewrite Hj, notifications_app, notifications_retry_rounds, Hlen.
    cbn. lia.
  - exists es, e. repeat split; auto.
    rewrite <- Hres. symmetry. apply probed_faithful.
Qed.

Lemma withRetries_exhausts_budget_witness :
  let run := withRetries (probed unreachable_operation) 2
               (probed_onRetry (fun _ _ attempts => attempts)) (O, []) in
  invocations (snd (snd run)) = 3%nat /\
  notifications (snd (snd run)) = 2%nat /\
  exists (es : list exn) (e : exn),
    List.length es = 2%nat /\
    Forall (fun e' => is_transient e' = true) es /\
    snd (snd run) = retry_rounds es 2 ++ [Invoked (Some e)] /\
    is_transient e = true /\
    fst run = inl e /\
    fst (withRetries unreachable_operation 2 (fun _ _ attempts => attempts) O) = inl e.
Proof.
  apply (withRetries_exhausts_budget nat unit unreachable_operation
           (fun _ _ attempts => attempts) 2 O).
  intro s. exists "Connection refused". reflexivity.
Defined.

(** C6. When the operation raises a failure that is not a transient
    connection failure, the wrapper does not retry: that failure reaches the
    caller after exactly one invocation of the operation and no invocation
    of the callback, whatever the retry count. *)
Theorem withRetries_other_failure_surfaces :
  forall (St A : Type) (function : M St A) (onRetry : exn -> nat -> St -> St)
         (N : nat) (s s1 : St) (e : exn),
    function s = (inl e, s1) ->
    is_transient e = false ->
    let run := withRetries (probed function) N (probed_onRetry onRetry) (s, []) in
    withRetries function N onRetry s = (inl e, s1) /\
    run = (inl e, (s1, [Invoked (Some e)])) /\
    invocations (snd (snd run)) = 1%nat /\
    notifications (snd (snd run)) = 0%nat.
Proof.
  intros St A function onRetry N s s1 e Hs He run.
  assert (Hrun : run = (inl e, (s1, [Invoked (Some e)]))).
  { unfold run. rewrite withRetries_unfold. cbn [probed fst snd]. rewrite Hs.
    cbn [fst snd raised_of app]. rewrite He. reflexivity. }
  repeat split; try (rewrite Hrun; reflexivity).
  rewrite withRetries_unfold, Hs, He. reflexivity.
Qed.

Lemma withRetries_other_failure_surfaces_witness :
  let run := withRetries (probed undecodable_operation) 5
               (probed_onRetry (fun _ _ attempts => attempts)) (O, []) in
  withRetries undecodable_operation 5 (fun _ _ attempts => attempts) O
    = (inl (JSONDecodeError "Expecting value"), 1%nat) /\
  run = (inl (JSONDecodeError "Expecting value"),
         (1%nat, [Invoked (Some (JSONDecodeError "Expecting value"))])) /\
  invocations (snd (snd run)) = 1%nat /\
  notifications (snd (snd run)) = 0%nat.
Proof.
  apply (withRetries_other_failure_surfaces nat unit undecodable_operation
           (fun _ _ attempts => attempts) 5 O 1%nat (JSONDecodeError "Expecting value"));
    reflexivity.
Defined.

(** ** Requests issued through the wrapper *)

Section Requests.

Variable req : Request.

(** A request issued through the wrapper with [n] retries is sent [k + 1]
    times for some [k <= n]: the first [k] attempts met a connection
    failure, each followed by a warning and a pause of three seconds; the
    outcome of the last attempt is the outcome of the call. The object and
    the network are left as they were. *)
Lemma requests_request_run (w : World) :
  requests_request req w
  = (net w (sent w) req,
     mkWorld (this w) (net w) (sent w ++ [req]) (stderr w) (slept w)).
Proof. reflexivity. Qed.

Lemma retried_request :
  forall (n : nat) (w : World),
    exists (k : nat) (warnings : list string),
      (k <= n)%nat /\
      sent (snd (withRetries (requests_request req) n _onRequestRetry w))
        = sent w ++ repeat req (S k) /\
      fst (withRetries (requests_request req) n _onRequestRetry w)
        = net w (sent w ++ repeat req k) req /\
      this (snd (withRetries (requests_request req) n _onRequestRetry w)) = this w /\
      net (snd (withRetries (requests_request req) n _onRequestRetry w)) = net w /\
      slept (snd (withRetries (requests_request req) n _onRequestRetry w))
        = slept w ++ repeat 3 k /\
      stderr (snd (withRetries (requests_request req) n _onRequestRetry w))
        = stderr w ++ warnings /\
      List.length warnings = k.
Proof.
  induction n as [| n IH]; intro w.
  - exists O, []. rewrite withRetries_unfold, requests_request_run.
    cbn [repeat]. rewrite !app_nil_r.
    destruct (net w (sent w) req) as [e | r]; [destruct (is_transient e) |];
      cbn; rewrite ?app_nil_r; repeat split; auto; lia.
  - rewrite withRetries_unfold, requests_request_run.
    destruct (net w (sent w) req) as [e | r] eqn:Hout.
    + destruct (is_transient e) eqn:Htr.
      * set (w1 := _onRequestRetry e (S n)
                     (mkWorld (this w) (net w) (sent w ++ [req]) (stderr w) (slept w))).
        destruct (IH w1)
          as (k & warnings & Hk & Hsent & Hres & Hthis & Hnet & Hslept & Herr & Hlen).
        exists (S k). eexists (_ :: warnings).
        rewrite Hsent, Hres, Hthis, Hnet, Hslept, Herr.
        unfold w1. cbn [_onRequestRetry time_sleep eprint this net sent slept stderr].
        rewrite <- !app_assoc. cbn [app repeat List.length].
        repeat split; auto; lia.
      * exists O, []. cbn. rewrite !app_nil_r. repeat split; auto; lia.
    + exists O, []. cbn. rewrite !app_nil_r. repeat split; auto; lia.
Qed.

(** The same facts in the vocabulary of the properties. *)
Lemma call_summary :
  forall (n : nat) (w : World),
    exists (k : nat) (warnings : list string),
      (k <= n)%nat /\
      issued w (snd (withRetries (requests_request req) n _onRequestRetry w))
        = repeat req (S k) /\
      last_outcome w (snd (withRetries (requests_request req) n _onRequestRetry w))
        = Some (fst (withRetries (requests_request req) n _onRequestRetry w)) /\
      this (snd (withRetries (requests_request req) n _onRequestRetry w)) = this w /\
      stderr (snd (withRetries (requests_request req) n _onRequestRetry w))
        = stderr w ++ warnings /\
      List.length warnings = k /\
      slept (snd (withRetries (requests_request req) n _onRequestRetry w))
        = slept w ++ repeat 3 k.
Proof.
  intros n w.
  destruct (retried_request n w)
    as (k & warnings & Hk & Hsent & Hres & Hthis & Hnet & Hslept & Herr & Hlen).
  exists k, warnings. repeat split; auto.
  - unfold issued. rewrite Hsent, skipn_app, skipn_all, Nat.sub_diag. reflexivity.
  - unfold last_outcome. rewrite Hsent. cbn [repeat].
    rewrite repeat_cons, app_assoc, rev_unit.
    rewrite !length_app, rev_involutive, Hres. cbn [List.length].
    replace (_ <? _)%nat with true; [reflexivity |].
    symmetry. apply Nat.ltb_lt. lia.
Qed.

End Requests.

(** ** The endpoint methods *)

(** Opens a method down to its call of the wrapper. *)
Ltac open_method :=
  cbv beta iota zeta delta
    [getBlock placeBlock runCommand getBuildArea getChunks getVersion checkConnection
     try_except _get _put _post requests_get requests_put requests_post bind get_this].

(** Brings in the facts of [call_summary] for the call of the wrapper in the
    goal, and splits on its outcome. *)
Ltac summarise_call :=
  match goal with
  | |- context [withRetries (requests_request ?r) ?n _onRequestRetry ?w] =>
      let k := fresh "k" in
      let warnings := fresh "warnings" in
      let Hk := fresh "Hk" in
      let Hiss := fresh "Hissued" in
      let Hlast := fresh "Hlast" in
      let Hthis := fresh "Hthis" in
      let Herr := fresh "Hstderr" in
      let Hlen := fresh "Hwarnings" in
      let Hslept := fresh "Hslept" in
      let e := fresh "e" in
      let response := fresh "response" in
      let w1 := fresh "w1" in
      destruct (call_summary r n w)
        as (k & warnings & Hk & Hiss & Hlast & Hthis & Herr & Hlen & Hslept);
      destruct (withRetries (requests_request r) n _onRequestRetry w)
        as [[e | response] w1];
      cbn [fst snd] in *
  end.

(** Splits on what the decoding of a response looks at. *)
Ltac split_outcome :=
  match goal with
  | |- context [parsed ?r] => destruct (parsed r)
  | |- context [ok ?r] => destruct (ok r)
  | |- context [json_eq_minus_one ?j] => destruct (json_eq_minus_one j)
  | |- context [json_getitem ?j ?k] => destruct (json_getitem j k)
  | |- context [400 <=? ?c] => destruct (400 <=? c)
  end.

Lemma Forall_repeat {T : Type} (P : T -> Prop) (a : T) (n : nat) :
  P a -> Forall P (repeat a n).
Proof. intro Ha. induction n; cbn; auto. Qed.

Lemma repeat_S_not_nil {T : Type} (a : T) (n : nat) : repeat a (S n) <> [].
Proof. discriminate. Qed.

(** C9. No endpoint method changes the configured host: after every call,
    returning or raising, [self.host] is what it was before the call. *)
Theorem host_unchanged :
  forall w : World,
    (forall x y z dx dy dz dimension includeState includeData retries timeout,
        host (this (snd (getBlock x y z dx dy dz dimension includeState includeData
                           retries timeout w))) = host (this w)) /\
    (forall x y z blockStr dimension doBlockUpdates spawnDrops customFlags retries timeout,
        host (this (snd (placeBlock x y z blockStr dimension doBlockUpdates spawnDrops
                           customFlags retries timeout w))) = host (this w)) /\
    (forall command dimension retries timeout,
        host (this (snd (runCommand command dimension retries timeout w)))
          = host (this w)) /\
    (forall retries timeout,
        host (this (snd (getBuildArea retries timeout w))) = host (this w)) /\
    (forall x z dx dz dimension asBytes retries timeout,
        host (this (snd (getChunks x z dx dz dimension asBytes retries timeout w)))
          = host (this w)) /\
    (forall retries timeout,
        host (this (snd (getVersion retries timeout w))) = host (this w)) /\
    (forall versions,
        host (this (snd (checkConnection versions w))) = host (this w)).
Proof.
  intro w. repeat split; intros; open_method; summarise_call;
    unfold response_json, lift, exec, ret, raise;
    repeat (split_outcome; cbn);
    try (match goal with e : exn |- _ => destruct e end);
    cbn; now rewrite Hthis.
Qed.

Lemma issued_eprint (line : string) (w w1 : World) :
  issued w (eprint line w1) = issued w w1.
Proof. reflexivity. Qed.

Lemma last_outcome_eprint (line : string) (w w1 : World) :
  last_outcome w (eprint line w1) = last_outcome w w1.
Proof. reflexivity. Qed.

(** Reduces the goal to the world left by the call of the wrapper. *)
Ltac after_call :=
  open_method; summarise_call;
  unfold response_json, lift, exec, ret, raise;
  repeat (split_outcome; cbn [fst snd negb]);
  try (match goal with e : exn |- _ => destruct e end);
  cbn [fst snd negb];
  rewrite ?issued_eprint, ?last_outcome_eprint.

(** C8. An [HTTPInterface] constructed without a host has the host
    [http://localhost:9000]; and every endpoint method sends its requests,
    at least one, to the configured host joined with the fixed path of its
    endpoint, with the verb of that endpoint. *)
Theorem endpoint_urls :
  host (HTTPInterface_init None) = "http://localhost:9000" /\
  forall w : World,
    (forall x y z dx dy dz dimension includeState includeData retries timeout,
        sends_to GET (host (this w) +++ "/blocks") w
          (snd (getBlock x y z dx dy dz dimension includeState includeData
                  retries timeout w))) /\
    (forall x y z blockStr dimension doBlockUpdates spawnDrops customFlags retries timeout,
        sends_to PUT (host (this w) +++ "/blocks") w
          (snd (placeBlock x y z blockStr dimension doBlockUpdates spawnDrops
                  customFlags retries timeout w))) /\
    (forall command dimension retries timeout,
        sends_to POST (host (this w) +++ "/command") w
          (snd (runCommand command dimension retries timeout w))) /\
    (forall retries timeout,
        sends_to GET (host (this w) +++ "/buildarea") w
          (snd (getBuildArea retries timeout w))) /\
    (forall x z dx dz dimension asBytes retries timeout,
        sends_to GET (host (this w) +++ "/chunks") w
          (snd (getChunks x z dx dz dimension asBytes retries timeout w))) /\
    (forall retries timeout,
        sends_to GET (host (this w) +++ "/version") w
          (snd (getVersion retries timeout w))) /\
    (forall versions,
        sends_to GET (host (this w) +++ "/version") w
          (snd (checkConnection versions w))).
Proof.
  split; [reflexivity |].
  intro w. repeat split; intros; after_call;
    rewrite Hissued;
    first [ apply repeat_S_not_nil
          | apply Forall_repeat; split; reflexivity ].
Qed.

(** ** Query parameters *)

(** C10. Every request of [placeBlock] carries, when [customFlags] is the
    empty string, [doBlockUpdates] and [spawnDrops] with the caller's values
    and no [customFlags]; and when [customFlags] is not empty, [customFlags]
    with the caller's value and neither [doBlockUpdates] nor [spawnDrops]. *)
Theorem placeBlock_update_flags :
  forall (w : World) x y z blockStr dimension doBlockUpdates spawnDrops customFlags
         retries timeout,
    let w' := snd (placeBlock x y z blockStr dimension doBlockUpdates spawnDrops
                     customFlags retries timeout w) in
    issued w w' <> [] /\
    Forall (fun r =>
              if String.eqb customFlags ""
              then has_param r "doBlockUpdates" (PyBool doBlockUpdates) /\
                   has_param r "spawnDrops" (PyBool spawnDrops) /\
                   lacks_param r "customFlags"
              else has_param r "customFlags" (PyStr customFlags) /\
                   lacks_param r "doBlockUpdates" /\
                   lacks_param r "spawnDrops")
           (issued w w').
Proof.
  intros. subst w'. after_call; rewrite Hissued;
    (split; [apply repeat_S_not_nil | apply Forall_repeat]);
    destruct (String.eqb customFlags ""); cbn; repeat split.
Qed.

(** No request of [placeBlock] carries a dimension, whatever the caller
    passes as [dimension]. *)
Lemma placeBlock_never_sends_dimension :
  forall (w : World) x y z blockStr dimension doBlockUpdates spawnDrops customFlags
         retries timeout,
    Forall (fun r => lacks_param r "dimension")
           (issued w (snd (placeBlock x y z blockStr dimension doBlockUpdates spawnDrops
                             customFlags retries timeout w))).
Proof.
  intros. after_call; rewrite Hissued; apply Forall_repeat;
    destruct (String.eqb customFlags ""); cbn; repeat split.
Qed.

(** The requests of [getBlock]: the coordinates always; each of [dx], [dy],
    [dz] and [dimension] exactly when set; the two inclusion flags exactly
    when true. *)
Lemma getBlock_query :
  forall (w : World) x y z dx dy dz dimension (includeState includeData : bool)
         retries timeout,
    Forall (fun r =>
              has_param r "x" (PyInt x) /\ has_param r "y" (PyInt y) /\
              has_param r "z" (PyInt z) /\
              sends_optional r "dx" (option_map PyInt dx) /\
              sends_optional r "dy" (option_map PyInt dy) /\
              sends_optional r "dz" (option_map PyInt dz) /\
              sends_optional r "includeState"
                (if includeState then Some (PyBool true) else None) /\
              sends_optional r "includeData"
                (if includeData then Some (PyBool true) else None) /\
              sends_optional r "dimension" (option_map PyStr dimension))
           (issued w (snd (getBlock x y z dx dy dz dimension includeState includeData
                             retries timeout w))).
Proof.
  intros. after_call; rewrite Hissued; apply Forall_repeat;
    destruct dx, dy, dz, dimension, includeState, includeData; cbn; repeat split.
Qed.

(** The requests of [runCommand] and of [getChunks] carry the dimension
    exactly when it is set. *)
Lemma runCommand_query :
  forall (w : World) command dimension retries timeout,
    Forall (fun r => sends_optional r "dimension" (option_map PyStr dimension))
           (issued w (snd (runCommand command dimension retries timeout w))).
Proof.
  intros. after_call; rewrite Hissued; apply Forall_repeat;
    destruct dimension; reflexivity.
Qed.

Lemma getChunks_query :
  forall (w : World) x z dx dz dimension asBytes retries timeout,
    Forall (fun r =>
              has_param r "x" (PyInt x) /\ has_param r "z" (PyInt z) /\
              has_param r "dx" (PyInt dx) /\ has_param r "dz" (PyInt dz) /\
              sends_optional r "dimension" (option_map PyStr dimension))
           (issued w (snd (getChunks x z dx dz dimension asBytes retries timeout w))).
Proof.
  intros. after_call; rewrite Hissued; apply Forall_repeat;
    destruct dimension; cbn; repeat split.
Qed.

(** C1. A call of [placeBlock] with the dimension set to [the_nether]
    issues one request whose query string is the three coordinates and the
    two block-update flags: the dimension the caller set is not in it,
    whereas [getBlock], [runCommand] and [getChunks] send theirs. *)
Theorem placeBlock_omits_set_dimension :
  let w := answering (inr (plain_response 200 "1" None)) (HTTPInterface_init None) in
  let w' := snd (placeBlock 0 64 0 "stone" (Some "the_nether") true false "" 5 None w) in
  map query (issued w w')
    = [ [ ("x", PyInt 0); ("y", PyInt 64); ("z", PyInt 0);
          ("doBlockUpdates", PyBool true); ("spawnDrops", PyBool false) ] ] /\
  Forall (fun r => query_get (query r) "dimension" = None) (issued w w') /\
  Forall (fun r => query_get (query r) "dimension" = Some (PyStr "the_nether"))
         (issued w (snd (runCommand "say hi" (Some "the_nether") 5 None w))).
Proof.
  cbv zeta. split; [reflexivity |]. split; repeat constructor.
Qed.

(** ** Decoding the responses *)

Lemma str_split_length (sep : ascii) (s : string) :
  List.length (str_split sep s) = S (str_count sep s).
Proof.
  induction s as [| c rest IH]; [reflexivity |].
  cbn [str_split str_count]. destruct (Ascii.eqb c sep).
  - cbn [List.length]. now rewrite IH.
  - destruct (str_split sep rest) as [| piece pieces]; [discriminate IH |].
    exact IH.
Qed.

Lemma str_in_spec (v : string) (versions : list string) :
  str_in v versions = true <-> In v versions.
Proof.
  unfold str_in. rewrite existsb_exists. split.
  - intros (x & Hin & Heq). apply String.eqb_eq in Heq. now subst.
  - intro Hin. exists v. split; [exact Hin | apply String.eqb_refl].
Qed.

(** C7. Every request of [getChunks] carries the Accept header
    [application/octet-stream] when [asBytes] is true and [text/plain]
    otherwise. Whatever response the server gives, the method returns its
    raw content when [asBytes] is true and its text otherwise; when the
    status is 400 or above it prints the error on standard error (after the
    warnings of the retries) and returns the body all the same. *)
Theorem getChunks_returns_body :
  forall (w : World) x z dx dz dimension (asBytes : bool) retries timeout,
    let run := getChunks x z dx dz dimension asBytes retries timeout w in
    let acceptType := if asBytes then "application/octet-stream" else "text/plain" in
    issued w (snd run) <> [] /\
    Forall (fun r => headers (kw r) = [("Accept", acceptType)]) (issued w (snd run)) /\
    match last_outcome w (snd run) with
    | Some (inr response) =>
        fst run = inr (if asBytes then inl (content response) else inr (text response)) /\
        exists warnings : list string,
          List.length warnings = pred (List.length (issued w (snd run))) /\
          stderr (snd run)
            = stderr w ++ warnings
                ++ (if 400 <=? status_code response
                    then ["Error: " +++ text response]
                    else [])
    | Some (inl e) => fst run = inl e
    | None => False
    end.
Proof.
  intros. subst run acceptType. open_method. summarise_call.
  - destruct e; cbn [fst snd]; rewrite Hlast, Hissued;
      (split; [apply repeat_S_not_nil |]);
      (split; [apply Forall_repeat |]); reflexivity.
  - unfold exec, ret.
    destruct (400 <=? status_code response) eqn:Hstatus; cbn [fst snd];
      rewrite ?issued_eprint, ?last_outcome_eprint, Hlast, Hissued, Hstatus;
      (split; [apply repeat_S_not_nil |]);
      (split; [apply Forall_repeat; reflexivity |]);
      (split; [reflexivity |]);
      exists warnings; rewrite repeat_length; cbn [pred eprint stderr];
      rewrite Hstderr, <- ?app_assoc, ?app_nil_r; auto.
Qed.

(** C5, as the code has it. When the server answers, [placeBlock] and
    [runCommand] return the text of the response split at the line feeds:
    the number of result strings is one more than the number of line feeds
    of the response, and it is the number of lines of the input exactly
    when the response has as many line feeds as the input. When no answer
    comes, the failure of the last attempt is raised. *)
Theorem result_lines_follow_response :
  forall w : World,
    (forall x y z blockStr dimension doBlockUpdates spawnDrops customFlags retries timeout,
        let run := placeBlock x y z blockStr dimension doBlockUpdates spawnDrops
                     customFlags retries timeout w in
        match last_outcome w (snd run) with
        | Some (inr response) =>
            fst run = inr (str_split LF (text response)) /\
            List.length (str_split LF (text response)) = S (str_count LF (text response)) /\
            (List.length (str_split LF (text response)) = List.length (str_split LF blockStr)
             <-> str_count LF (text response) = str_count LF blockStr)
        | Some (inl e) => fst run = inl e
        | None => False
        end) /\
    (forall command dimension retries timeout,
        let run := runCommand command dimension retries timeout w in
        match last_outcome w (snd run) with
        | Some (inr response) =>
            fst run = inr (str_split LF (text response)) /\
            List.length (str_split LF (text response)) = S (str_count LF (text response)) /\
            (List.length (str_split LF (text response)) = List.length (str_split LF command)
             <-> str_count LF (text response) = str_count LF command)
        | Some (inl e) => fst run = inl e
        | None => False
        end).
Proof.
  intro w. split; intros; subst run; after_call; rewrite Hlast;
    try reflexivity;
    (split; [reflexivity |]);
    (split; [apply str_split_length |]);
    rewrite !str_split_length;
    (split; intro H; [injection H; auto | now rewrite H]).
Qed.

(** C5, as stated, fails: a server that answers a two-line request with a
    one-line error makes both methods return one string. *)
Lemma result_count_differs_from_input_lines :
  let w := answering (inr (plain_response 500 "Internal Server Error" None))
             (HTTPInterface_init None) in
  let blockStr := "stone" +++ nl +++ "dirt" in
  let command := "say a" +++ nl +++ "say b" in
  fst (placeBlock 0 64 0 blockStr None true false "" 5 None w)
    = inr ["Internal Server Error"] /\
  List.length (str_split LF blockStr) = 2%nat /\
  fst (runCommand command None 5 None w) = inr ["Internal Server Error"] /\
  List.length (str_split LF command) = 2%nat.
Proof. cbv zeta. repeat split. Qed.

(** The world [getBuildArea] leaves is the one its call of the wrapper left. *)
Lemma getBuildArea_world (retries : nat) (timeout : option Z) (w : World) :
  snd (getBuildArea retries timeout w)
  = snd (_get (host (this w) +++ "/buildarea") (mkKwargs [] [] None timeout) retries w).
Proof.
  open_method.
  destruct (withRetries _ retries _onRequestRetry w) as [[e | response] w1];
    [reflexivity |].
  unfold response_json, lift, ret, raise.
  repeat (split_outcome; cbn [fst snd negb]); reflexivity.
Qed.

(** C3, as the code has it. Whatever response the server gives,
    [getBuildArea] returns [(False, text)] exactly when the status is not a
    success or the body is JSON equal to -1. Otherwise: when the body is a
    JSON object with the six fields it returns [(True, t)], [t] being the
    values of [xFrom], [yFrom], [zFrom], [xTo], [yTo], [zTo] in this order;
    when the body is not JSON, or is JSON of another shape, or lacks one of
    the fields, it raises instead of returning. *)
Theorem getBuildArea_outcomes :
  forall (w : World) (retries : nat) (timeout : option Z),
    let run := getBuildArea retries timeout w in
    match last_outcome w (snd run) with
    | Some (inr response) =>
        ((exists message, fst run = inr (false, message)) <->
         (ok response = false \/
          exists j, parsed response = Some j /\ json_eq_minus_one j = true)) /\
        (if negb (ok response) then fst run = inr (false, inr (text response))
         else
           match parsed response with
           | None => exists msg, fst run = inl (JSONDecodeError msg)
           | Some j =>
               if json_eq_minus_one j then fst run = inr (false, inr (text response))
               else
                 match j with
                 | JDict fields =>
                     match fields_get fields "xFrom", fields_get fields "yFrom",
                           fields_get fields "zFrom", fields_get fields "xTo",
                           fields_get fields "yTo", fields_get fields "zTo" with
                     | Some x1, Some y1, Some z1, Some x2, Some y2, Some z2 =>
                         fst run = inr (true, inl (x1, y1, z1, x2, y2, z2))
                     | _, _, _, _, _, _ => exists key, fst run = inl (KeyError key)
                     end
                 | _ => exists msg, fst run = inl (TypeError msg)
                 end
           end)
    | Some (inl e) => fst run = inl e
    | None => False
    end.
Proof.
  intros w retries timeout0 run. subst run.
  rewrite getBuildArea_world. unfold _get, requests_get.
  destruct (call_summary
              (mkRequest GET (host (this w) +++ "/buildarea")
                 (mkKwargs [] [] None timeout0)) retries w)
    as (k & warnings & _ & _ & Hlast & _).
  rewrite Hlast. open_method.
  destruct (withRetries _ retries _onRequestRetry w) as [[e | response] w1];
    cbn [fst snd]; [reflexivity |].
  unfold response_json, lift, ret, raise.
  destruct (ok response); cbn [negb fst snd].
  - destruct (parsed response) as [j |]; cbn [fst snd].
    + destruct (json_eq_minus_one j) eqn:Hsentinel; cbn [fst snd].
      * split; [| reflexivity].
        split; [intros _; right; exists j; auto | intros _; eexists; reflexivity].
      * split.
        { split.
          - intros [message Hm]. exfalso.
            destruct j; cbn in Hm; try discriminate Hm.
            repeat match type of Hm with
                   | context [fields_get ?f ?k] => destruct (fields_get f k)
                   end; discriminate Hm.
          - intros [Hok | (j' & Hj' & Hs)]; [discriminate Hok |].
            injection Hj' as <-. congruence. }
        destruct j; cbn [json_getitem fst snd]; try (eexists; reflexivity).
        repeat match goal with
               | |- context [fields_get ?f ?k] => destruct (fields_get f k)
               end; cbn [fst snd]; try reflexivity; eexists; reflexivity.
    + split; [| eexists; reflexivity].
      split; [intros [message Hm]; discriminate Hm |].
      intros [Hok | (j' & Hj' & _)]; discriminate.
  - split; [| reflexivity].
    split; [intros _; left; reflexivity | intros _; eexists; reflexivity].
Qed.

(** C3, as stated, fails: a response with status 200 whose body is the JSON
    object without fields is neither answered with [(False, text)] nor with
    [(True, t)]; the method raises [KeyError]. A body that is not JSON makes
    it raise the decoding error. *)
Lemma getBuildArea_raises_on_other_payload :
  let empty_object := plain_response 200 "{}" (Some (JDict [])) in
  let page := plain_response 200 "<html></html>" None in
  ok empty_object = true /\
  json_eq_minus_one (JDict []) = false /\
  fst (getBuildArea 5 None (answering (inr empty_object) (HTTPInterface_init None)))
    = inl (KeyError "xFrom") /\
  ok page = true /\
  fst (getBuildArea 5 None (answering (inr page) (HTTPInterface_init None)))
    = inl (JSONDecodeError "Expecting value").
Proof. cbv zeta. repeat split. Qed.

(** C4. [checkConnection] issues one request, [GET <host>/version], and
    never retries (no warning, no pause). When that request meets a
    connection failure it returns [(False, None)]; when the server answers
    it returns [(True, b)], [b] being true exactly when the text of the
    answer is in the list of supported versions. Another failure of the
    request is raised as it is. *)
Theorem checkConnection_outcomes :
  forall (versions : list string) (w : World),
    let run := checkConnection versions w in
    issued w (snd run)
      = [mkRequest GET (host (this w) +++ "/version") (mkKwargs [] [] None None)] /\
    stderr (snd run) = stderr w /\
    slept (snd run) = slept w /\
    match last_outcome w (snd run) with
    | Some (inl (RequestConnectionError _)) => fst run = inr (false, None)
    | Some (inl e) => fst run = inl e
    | Some (inr response) =>
        fst run = inr (true, Some (str_in (text response) versions)) /\
        (str_in (text response) versions = true <-> In (text response) versions)
    | None => False
    end.
Proof.
  intros versions w run. subst run. open_method. summarise_call;
    assert (Hzero : k = O) by lia; rewrite Hzero in *;
    apply length_zero_iff_nil in Hwarnings; subst warnings;
    cbn [repeat] in *; rewrite ?app_nil_r in *.
  - destruct e; unfold ret; cbn [fst snd]; rewrite Hlast; auto.
  - unfold ret; cbn [fst snd]. rewrite Hlast. repeat split; auto; apply str_in_spec.
Qed.

(** ** The wrapper on requests *)

(** Against a network that lets nothing through, a request issued with [N]
    retries is sent [N + 1] times, with [N] warnings and [N] pauses of three
    seconds in between, and the connection failure is raised. *)
Lemma unreachable_request_exhausts_budget :
  forall (req : Request) (N : nat) (w : World),
    unreachable w ->
    exists (msg : string) (warnings : list string),
      fst (withRetries (requests_request req) N _onRequestRetry w)
        = inl (RequestConnectionError msg) /\
      issued w (snd (withRetries (requests_request req) N _onRequestRetry w))
        = repeat req (S N) /\
      stderr (snd (withRetries (requests_request req) N _onRequestRetry w))
        = stderr w ++ warnings /\
      List.length warnings = N /\
      slept (snd (withRetries (requests_request req) N _onRequestRetry w))
        = slept w ++ repeat 3 N.
Proof.
  intros req N. induction N as [| N IH]; intros w Hnet.
  - destruct (Hnet (sent w) req) as [msg Hout].
    exists msg, []. rewrite withRetries_unfold, requests_request_run, Hout.
    unfold issued. cbn. rewrite skipn_app, skipn_all, Nat.sub_diag, !app_nil_r.
    repeat split.
  - destruct (Hnet (sent w) req) as [msg Hout].
    rewrite withRetries_unfold, requests_request_run, Hout. cbn [is_transient].
    set (w1 := _onRequestRetry _ _ _).
    destruct (IH w1) as (msg' & warnings & Hres & Hiss & Herr & Hlen & Hslept);
      [exact Hnet |].
    exists msg'. eexists (_ :: warnings).
    rewrite Hres, Herr, Hslept. unfold issued in *.
    assert (Hsent : sent (snd (withRetries (requests_request req) N _onRequestRetry w1))
                    = sent w1 ++ repeat req (S N)).
    { destruct (retried_request req N w1) as (k & ws & _ & Hs & _).
      rewrite Hs in Hiss |- *.
      rewrite skipn_app, skipn_all, Nat.sub_diag in Hiss. cbn [skipn app] in Hiss.
      now rewrite Hiss. }
    rewrite Hsent. unfold w1.
    cbn [_onRequestRetry time_sleep eprint this net sent slept stderr].
    rewrite <- !app_assoc, !skipn_app, !skipn_all, Nat.sub_diag.
    cbn [app repeat List.length skipn]. rewrite Hlen.
    repeat split.
Qed.

(** ** Worked runs *)

Example str_split_lines :
  str_split LF ("1" +++ nl +++ "0" +++ nl) = ["1"; "0"; ""] /\
  str_split LF "" = [""].
Proof. split; reflexivity. Qed.

Example encode_params_drops_none :
  encode_params [("x", Some (PyInt 1)); ("dx", None); ("dimension", Some (PyStr "the_end"))]
  = [("x", PyInt 1); ("dimension", PyStr "the_end")].
Proof. reflexivity. Qed.

(** Two refused connections, then version 1.19.2: three requests, two
    warnings counting the retries down from five, two pauses. *)
Example getVersion_after_two_failures :
  let w := flaky 2 (inr (plain_response 200 "1.19.2" None)) (HTTPInterface_init None) in
  let run := getVersion 5 None w in
  fst run = inr "1.19.2" /\
  map url (sent (snd run))
    = repeat "http://localhost:9000/version" 3 /\
  slept (snd run) = [3; 3] /\
  stderr (snd run)
    = [ colored "yellow"
          ("HTTP request failed! Is Minecraft running? If so, try reducing your render distance."
           +++ nl +++ "Error: Connection refused"
           +++ "I'll retry in a bit (5 retries left)." +++ nl);
        colored "yellow"
          ("HTTP request failed! Is Minecraft running? If so, try reducing your render distance."
           +++ nl +++ "Error: Connection refused"
           +++ "I'll retry in a bit (4 retries left)." +++ nl) ].
Proof. cbv zeta. repeat split. Qed.

Example getBuildArea_runs :
  let area := JDict [ ("xFrom", JInt 0); ("yFrom", JInt (-64)); ("zFrom", JInt 0);
                      ("xTo", JInt 127); ("yTo", JInt 319); ("zTo", JInt 127) ] in
  let self := HTTPInterface_init (Some "http://example.org:9000") in
  fst (getBuildArea 5 None (answering (inr (plain_response 200 "{...}" (Some area))) self))
    = inr (true, inl (JInt 0, JInt (-64), JInt 0, JInt 127, JInt 319, JInt 127)) /\
  fst (getBuildArea 5 None (answering (inr (plain_response 200 "-1" (Some (JInt (-1))))) self))
    = inr (false, inr "-1") /\
  fst (getBuildArea 5 None
         (answering (inr (plain_response 200 "-1.0" (Some (JFloat (-1)%float)))) self))
    = inr (false, inr "-1.0") /\
  fst (getBuildArea 5 None
         (answering (inr (plain_response 404 "No build area is specified." None)) self))
    = inr (false, inr "No build area is specified.").
Proof. cbv zeta. repeat split. Qed.

Example checkConnection_runs :
  let self := HTTPInterface_init None in
  fst (checkConnection ["1.19.2"] (answering (inr (plain_response 200 "1.19.2" None)) self))
    = inr (true, Some true) /\
  fst (checkConnection ["1.19.2"] (answering (inr (plain_response 200 "1.16.5" None)) self))
    = inr (true, Some false) /\
  fst (checkConnection ["1.19.2"]
         (answering (inl (RequestConnectionError "Connection refused")) self))
    = inr (false, None) /\
  fst (checkConnection ["1.19.2"] (answering (inl (RequestError "Invalid URL")) self))
    = inl (RequestError "Invalid URL").
Proof. cbv zeta. repeat split. Qed.

(** ** The retry discipline of the three request helpers *)

Lemma retry_discipline_request (req : Request) :
  forall (N : nat) (w : World),
    retry_discipline req N w (withRetries (requests_request req) N _onRequestRetry w).
Proof.
  induction N as [| N IH]; intro w; unfold retry_discipline;
    rewrite withRetries_unfold, requests_request_run.
  - exists O. cbn [repeat]. rewrite !app_nil_r.
    destruct (net w (sent w) req) as [e | r]; [destruct (is_transient e) |];
      cbn [fst snd sent slept]; repeat split; auto; intros; lia.
  - destruct (net w (sent w) req) as [e | r] eqn:Hout.
    + destruct (is_transient e) eqn:Htransient.
      * set (w1 := _onRequestRetry e (S N)
                     (mkWorld (this w) (net w) (sent w ++ [req]) (stderr w) (slept w))).
        destruct (IH w1) as (k & Hk & Hsent & Hfailed & Hres & Hlast & Hslept).
        assert (Hshift : forall i, sent w1 ++ repeat req i = sent w ++ repeat req (S i)).
        { intro i. unfold w1. cbn [_onRequestRetry time_sleep eprint sent repeat].
          rewrite <- app_assoc. reflexivity. }
        exists (S k). rewrite Hsent, Hres, Hslept, !Hshift.
        repeat split; auto; try lia.
        -- intros i Hi. destruct i as [| i].
           ++ cbn [repeat]. rewrite app_nil_r, Hout.
              destruct e; try discriminate Htransient. eexists; reflexivity.
           ++ rewrite <- Hshift. apply Hfailed. lia.
        -- intros msg Hmsg. f_equal. apply (Hlast msg).
           rewrite Hres, Hshift. exact Hmsg.
        -- unfold w1. cbn [_onRequestRetry time_sleep eprint slept repeat].
           rewrite <- app_assoc. reflexivity.
      * exists O. cbn [fst snd sent slept repeat]. rewrite !app_nil_r.
        repeat split; auto; try lia.
        intros msg Hmsg. injection Hmsg as ->. discriminate Htransient.
    + exists O. cbn [fst snd sent slept repeat]. rewrite !app_nil_r.
      repeat split; auto; try lia. intros msg Hmsg. discriminate Hmsg.
Qed.

(** [_get], [_put] and [_post] send the request they are given, with their
    own verb, again and again as long as the connection fails and retries
    are left: the attempts before the last all met a connection failure, the
    outcome of the last attempt is the outcome of the call, a connection
    failure comes out only when all retries are used up, and each failed
    attempt but the last is followed by a pause of three seconds. *)
Theorem request_helpers_retry_discipline :
  forall (url : string) (kw : kwargs) (retries : nat) (w : World),
    retry_discipline (mkRequest GET url kw) retries w (_get url kw retries w) /\
    retry_discipline (mkRequest PUT url kw) retries w (_put url kw retries w) /\
    retry_discipline (mkRequest POST url kw) retries w (_post url kw retries w).
Proof.
  intros. repeat split; apply retry_discipline_request.
Qed.

(** ** Time and output spent on retries *)



(** ** With the server down *)

(** When no request gets through, every endpoint method called with
    [retries] retries raises the connection failure, after [retries + 1]
    requests and [retries] pauses of three seconds; [checkConnection] does
    not raise: it returns [(False, None)]. *)
Theorem methods_give_up_when_unreachable :
  forall w : World,
    unreachable w ->
    (forall x y z dx dy dz dimension includeState includeData retries timeout,
        gives_up retries w
          (getBlock x y z dx dy dz dimension includeState includeData retries timeout w)) /\
    (forall x y z blockStr dimension doBlockUpdates spawnDrops customFlags retries timeout,
        gives_up retries w
          (placeBlock x y z blockStr dimension doBlockUpdates spawnDrops customFlags
             retries timeout w)) /\
    (forall command dimension retries timeout,
        gives_up retries w (runCommand command dimension retries timeout w)) /\
    (forall retries timeout,
        gives_up retries w (getBuildArea retries timeout w)) /\
    (forall x z dx dz dimension asBytes retries timeout,
        gives_up retries w (getChunks x z dx dz dimension asBytes retries timeout w)) /\
    (forall retries timeout,
        gives_up retries w (getVersion retries timeout w)) /\
    (forall versions,
        fst (checkConnection versions w) = inr (false, None)).
Proof.
  intros w Hdown. repeat apply conj; intros; unfold gives_up; open_method;
    match goal with
    | |- context [withRetries (requests_request ?r) ?n _onRequestRetry w] =>
        destruct (unreachable_request_exhausts_budget r n w Hdown)
          as (msg & warnings & Hres & Hiss & _ & _ & Hslept);
        destruct (withRetries (requests_request r) n _onRequestRetry w) as [out w1];
        cbn [fst snd] in *; subst out; cbn [fst snd]
    end;
    try reflexivity;
    exists msg; rewrite Hiss, repeat_length; auto.
Qed.

Lemma methods_give_up_when_unreachable_witness :
  unreachable server_down_world /\
  gives_up 5 server_down_world (getVersion 5 None server_down_world) /\
  fst (checkConnection ["1.19.2"] server_down_world) = inr (false, None).
Proof.
  assert (Hdown : unreachable server_down_world).
  { intros before r. exists "Connection refused". reflexivity. }
  split; [exact Hdown |].
  split; apply (methods_give_up_when_unreachable server_down_world Hdown).
Defined.

(** ** What the requests carry *)

(** The query string of every request of [placeBlock] is the three
    coordinates followed by the block-update parameters, in this order,
    and nothing else: [doBlockUpdates] and [spawnDrops] when [customFlags]
    is empty, [customFlags] alone otherwise. *)
Theorem placeBlock_query :
  forall (w : World) x y z blockStr dimension doBlockUpdates spawnDrops customFlags
         retries timeout,
    Forall (fun r =>
              query r
              = [ ("x", PyInt x); ("y", PyInt y); ("z", PyInt z) ]
                  ++ (if String.eqb customFlags ""
                      then [ ("doBlockUpdates", PyBool doBlockUpdates);
                             ("spawnDrops", PyBool spawnDrops) ]
                      else [ ("customFlags", PyStr customFlags) ]))
           (issued w (snd (placeBlock x y z blockStr dimension doBlockUpdates spawnDrops
                             customFlags retries timeout w))).
Proof.
  intros. after_call; rewrite Hissued; apply Forall_repeat;
    destruct (String.eqb customFlags ""); reflexivity.
Qed.

(** Every request of a method, the repeated ones included, carries the
    timeout the caller passed; [getBlock] asks for JSON, [getChunks] for
    bytes or text, the other methods set no header; [checkConnection] sets
    no timeout. *)
Theorem requests_carry_timeout_and_headers :
  forall w : World,
    (forall x y z dx dy dz dimension includeState includeData retries timeout,
        Forall (carries [("accept", "application/json")] timeout)
          (issued w (snd (getBlock x y z dx dy dz dimension includeState includeData
                            retries timeout w)))) /\
    (forall x y z blockStr dimension doBlockUpdates spawnDrops customFlags retries timeout,
        Forall (carries [] timeout)
          (issued w (snd (placeBlock x y z blockStr dimension doBlockUpdates spawnDrops
                            customFlags retries timeout w)))) /\
    (forall command dimension retries timeout,
        Forall (carries [] timeout)
          (issued w (snd (runCommand command dimension retries timeout w)))) /\
    (forall retries timeout,
        Forall (carries [] timeout) (issued w (snd (getBuildArea retries timeout w)))) /\
    (forall x z dx dz dimension (asBytes : bool) retries timeout,
        Forall (carries [("Accept", if asBytes then "application/octet-stream"
                                    else "text/plain")] timeout)
          (issued w (snd (getChunks x z dx dz dimension asBytes retries timeout w)))) /\
    (forall retries timeout,
        Forall (carries [] timeout) (issued w (snd (getVersion retries timeout w)))) /\
    (forall versions,
        Forall (carries [] None) (issued w (snd (checkConnection versions w)))).
Proof.
  intro w. repeat apply conj; intros; after_call; rewrite Hissued;
    apply Forall_repeat; split; reflexivity.
Qed.

(** The body of every request of [placeBlock] is the UTF-8 encoding of the
    block string, and that of [runCommand] the encoding of the command:
    decoding the body gives the caller's string back. The reading methods
    send no body. *)
Theorem request_bodies :
  forall w : World,
    (forall x y z blockStr dimension doBlockUpdates spawnDrops customFlags retries timeout,
        Forall (body_is blockStr)
          (issued w (snd (placeBlock x y z blockStr dimension doBlockUpdates spawnDrops
                            customFlags retries timeout w)))) /\
    (forall command dimension retries timeout,
        Forall (body_is command)
          (issued w (snd (runCommand command dimension retries timeout w)))) /\
    (forall x y z dx dy dz dimension includeState includeData retries timeout,
        Forall (fun r => data (kw r) = None)
          (issued w (snd (getBlock x y z dx dy dz dimension includeState includeData
                            retries timeout w)))) /\
    (forall retries timeout,
        Forall (fun r => data (kw r) = None)
          (issued w (snd (getBuildArea retries timeout w)))) /\
    (forall x z dx dz dimension asBytes retries timeout,
        Forall (fun r => data (kw r) = None)
          (issued w (snd (getChunks x z dx dz dimension asBytes retries timeout w)))) /\
    (forall retries timeout,
        Forall (fun r => data (kw r) = None)
          (issued w (snd (getVersion retries timeout w)))).
Proof.
  intro w. repeat apply conj; intros; after_call; rewrite Hissued;
    apply Forall_repeat; try reflexivity;
    eexists; (split; [reflexivity | apply string_of_list_byte_of_string]).
Qed.

(** ** What the methods return *)

(** [getBlock] returns the JSON document of the response, whatever the
    status of the response; when the body is not JSON it raises the decoding
    error; when no response came, the failure of the last attempt. *)
Theorem getBlock_outcomes :
  forall (w : World) x y z dx dy dz dimension includeState includeData retries timeout,
    let run := getBlock x y z dx dy dz dimension includeState includeData
                 retries timeout w in
    match last_outcome w (snd run) with
    | Some (inr response) =>
        fst run = match parsed response with
                  | Some blocks => inr blocks
                  | None => inl (JSONDecodeError "Expecting value")
                  end
    | Some (inl e) => fst run = inl e
    | None => False
    end.
Proof.
  intros. subst run. open_method. summarise_call.
  - cbn [fst snd]. rewrite Hlast. reflexivity.
  - unfold response_json, ret, raise.
    destruct (parsed response) eqn:Hparsed; cbn [fst snd];
      rewrite Hlast, Hparsed; reflexivity.
Qed.

(** [getVersion] returns the text of the response as it is, whatever the
    status of the response; when no response came it raises the failure of
    the last attempt. *)
Theorem getVersion_outcomes :
  forall (w : World) retries timeout,
    let run := getVersion retries timeout w in
    match last_outcome w (snd run) with
    | Some (inr response) => fst run = inr (text response)
    | Some (inl e) => fst run = inl e
    | None => False
    end.
Proof.
  intros. subst run. after_call; rewrite Hlast; reflexivity.
Qed.

Lemma str_split_not_nil (sep : ascii) (s : string) : str_split sep s <> [].
Proof.
  destruct s as [| c rest]; cbn [str_split]; [discriminate |].
  destruct (Ascii.eqb c sep); [discriminate |].
  destruct (str_split sep rest); discriminate.
Qed.

Lemma str_split_pieces_clean (sep : ascii) (s : string) :
  Forall (fun piece => str_count sep piece = O) (str_split sep s).
Proof.
  induction s as [| c rest IH]; cbn [str_split].
  - repeat constructor.
  - destruct (Ascii.eqb c sep) eqn:Hc.
    + constructor; [reflexivity | exact IH].
    + destruct (str_split sep rest) as [| piece pieces].
      * repeat constructor. cbn [str_count]. now rewrite Hc.
      * inversion IH as [| ? ? Hpiece Hpieces]; subst.
        constructor; [| exact Hpieces]. cbn [str_count]. now rewrite Hc.
Qed.

Lemma concat_two_or_more (sep a b : string) (rest : list string) :
  String.concat sep (a :: b :: rest) = a +++ sep +++ String.concat sep (b :: rest).
Proof. reflexivity. Qed.

Lemma str_split_concat (sep : ascii) (s : string) :
  String.concat (String sep EmptyString) (str_split sep s) = s.
Proof.
  induction s as [| c rest IH]; [reflexivity |].
  cbn [str_split]. destruct (Ascii.eqb c sep) eqn:Hc.
  - apply Ascii.eqb_eq in Hc. subst c.
    pose proof (str_split_not_nil sep rest) as Hne.
    destruct (str_split sep rest) as [| piece pieces]; [contradiction |].
    rewrite concat_two_or_more, IH. reflexivity.
  - destruct (str_split sep rest) as [| piece pieces] eqn:Hsplit.
    + exfalso. apply (str_split_not_nil sep rest). exact Hsplit.
    + destruct pieces as [| next pieces].
      * cbn [String.concat] in *. now rewrite IH.
      * rewrite concat_two_or_more in *. rewrite <- IH. reflexivity.
Qed.

(** When the server answers, the list [placeBlock] and [runCommand] return
    is never empty, none of its strings contains a line feed, and joining
    them with line feeds gives the text of the response back. *)
Theorem result_lines_shape :
  forall w : World,
    (forall x y z blockStr dimension doBlockUpdates spawnDrops customFlags retries timeout,
        let run := placeBlock x y z blockStr dimension doBlockUpdates spawnDrops
                     customFlags retries timeout w in
        match last_outcome w (snd run) with
        | Some (inr response) =>
            exists results : list string,
              fst run = inr results /\
              results <> [] /\
              Forall (fun line => str_count LF line = O) results /\
              String.concat nl results = text response
        | Some (inl e) => fst run = inl e
        | None => False
        end) /\
    (forall command dimension retries timeout,
        let run := runCommand command dimension retries timeout w in
        match last_outcome w (snd run) with
        | Some (inr response) =>
            exists results : list string,
              fst run = inr results /\
              results <> [] /\
              Forall (fun line => str_count LF line = O) results /\
              String.concat nl results = text response
        | Some (inl e) => fst run = inl e
        | None => False
        end).
Proof.
  intro w. split; intros; subst run; after_call; rewrite Hlast;
    try reflexivity;
    exists (str_split LF (text response));
    (split; [reflexivity |]);
    (split; [apply str_split_not_nil |]);
    (split; [apply str_split_pieces_clean | apply str_split_concat]).
Qed.

(** [checkConnection] never raises a connection failure, and in the pair it
    returns the second component is [None] exactly when the first is
    [False]. *)
Theorem checkConnection_result_invariant :
  forall (versions : list string) (w : World),
    match fst (checkConnection versions w) with
    | inr (connected, supported) => connected = false <-> supported = None
    | inl e => is_transient e = false
    end.
Proof.
  intros. open_method. summarise_call.
  - destruct e; cbn; try reflexivity. split; reflexivity.
  - cbn. split; discriminate.
Qed.

(** In the pair [getBuildArea] returns, the flag tells which kind of result
    comes with it: the six bounds with [True], a message with [False]. When
    it raises, the exception is the failure of the request or one of the
    three errors of decoding. *)
Theorem getBuildArea_flag_matches_result :
  forall (w : World) retries timeout,
    let run := getBuildArea retries timeout w in
    match fst run with
    | inr (flag, result) =>
        flag = match result with inl _ => true | inr _ => false end
    | inl e =>
        last_outcome w (snd run) = Some (inl e) \/
        match e with
        | JSONDecodeError _ | KeyError _ | TypeError _ => True
        | _ => False
        end
    end.
Proof.
  intros. subst run. open_method. summarise_call.
  - cbn [fst snd]. left. exact Hlast.
  - unfold response_json, lift, ret, raise.
    destruct (ok response); cbn [fst snd negb]; [| reflexivity].
    destruct (parsed response) as [j |]; cbn [fst snd]; [| right; exact I].
    destruct (json_eq_minus_one j); cbn [fst snd]; [reflexivity |].
    destruct j; cbn [json_getitem fst snd]; try (right; exact I).
    repeat match goal with
           | |- context [fields_get ?f ?k] => destruct (fields_get f k); cbn [fst snd]
           end;
      first [reflexivity | right; exact I].
Qed.

(** ** Recovery within the retry budget *)

Lemma recovers_request (req : Request) :
  forall (retries k : nat) (w : World) (response : Response),
    (k <= retries)%nat ->
    (forall i : nat, (i < k)%nat ->
       exists msg, net w (sent w ++ repeat req i) req = inl (RequestConnectionError msg)) ->
    net w (sent w ++ repeat req k) req = inr response ->
    fst (withRetries (requests_request req) retries _onRequestRetry w) = inr response /\
    issued w (snd (withRetries (requests_request req) retries _onRequestRetry w))
      = repeat req (S k) /\
    slept (snd (withRetries (requests_request req) retries _onRequestRetry w))
      = slept w ++ repeat 3 k.
Proof.
  intros retries k w response Hk Hfailed Hanswer.
  destruct (retry_discipline_request req retries w)
    as (k' & Hk' & Hsent & Hfailed' & Hres & Hlast & Hslept).
  assert (Hsame : k' = k).
  { destruct (Nat.lt_trichotomy k' k) as [Hlt | [Heq | Hgt]]; [| exact Heq |].
    - destruct (Hfailed k' Hlt) as [msg Hmsg].
      rewrite Hmsg in Hres. apply Hlast in Hres. lia.
    - destruct (Hfailed' k Hgt) as [msg Hmsg].
      rewrite Hmsg in Hanswer. discriminate Hanswer. }
  subst k'. rewrite Hres, Hslept. unfold issued.
  rewrite Hsent, skipn_app, skipn_all, Nat.sub_diag. auto.
Qed.

(** When the first [k] attempts of a request meet a connection failure, the
    next one is answered and [k] is within the retries, the helper of the
    verb returns that answer, after [k + 1] requests and [k] pauses of three
    seconds. *)
Theorem request_helpers_recover :
  forall (v : verb) (url : string) (kw : kwargs) (retries k : nat) (w : World)
         (response : Response),
    (k <= retries)%nat ->
    (forall i : nat, (i < k)%nat ->
       exists msg,
         net w (sent w ++ repeat (mkRequest v url kw) i) (mkRequest v url kw)
         = inl (RequestConnectionError msg)) ->
    net w (sent w ++ repeat (mkRequest v url kw) k) (mkRequest v url kw) = inr response ->
    let run := match v with
               | GET => _get url kw retries w
               | PUT => _put url kw retries w
               | POST => _post url kw retries w
               end in
    fst run = inr response /\
    issued w (snd run) = repeat (mkRequest v url kw) (S k) /\
    slept (snd run) = slept w ++ repeat 3 k.
Proof.
  intros v url kw retries k w response Hk Hfailed Hanswer run. subst run.
  destruct v; apply recovers_request; assumption.
Qed.

Lemma request_helpers_recover_witness :
  let answer := plain_response 200 "1.19.2" None in
  let w := flaky 2 (inr answer) (HTTPInterface_init None) in
  let req := mkRequest GET "http://localhost:9000/version" (mkKwargs [] [] None None) in
  fst (_get "http://localhost:9000/version" (mkKwargs [] [] None None) 5 w) = inr answer /\
  issued w (snd (_get "http://localhost:9000/version" (mkKwargs [] [] None None) 5 w))
    = repeat req 3 /\
  slept (snd (_get "http://localhost:9000/version" (mkKwargs [] [] None None) 5 w))
    = [3; 3].
Proof.
  cbv zeta.
  apply (request_helpers_recover GET "http://localhost:9000/version"
           (mkKwargs [] [] None None) 5 2
           (flaky 2 (inr (plain_response 200 "1.19.2" None)) (HTTPInterface_init None))
           (plain_response 200 "1.19.2" None)).
  - lia.
  - intros i Hi. exists "Connection refused".
    destruct i as [| [| i]]; [reflexivity | reflexivity | lia].
  - reflexivity.
Defined.
